(** * SNMP models: OID and Value

    A shallow embedding of [snmp/datadog_checks/snmp/models.py]: the lazy
    [OID] facade over the representations PySNMP uses for object
    identifiers, and the [Value] wrapper that classifies and coerces the
    values returned by an agent.

    Python objects of the PySNMP and PyASN1 libraries are records of what
    the module observes of them (class name, base classes, tag set, the
    results of [int()], [float()], [bytes()], ...).  Methods that may raise
    live in a small monad [M] that also logs the calls made to the
    collaborators of the module (the parser of [utils], the MIB symbol
    lookup of PySNMP, the BER decoder of PyASN1), so that statements such as
    "without parsing again" can be read off the log. *)

From Stdlib Require Import ZArith String Ascii List Bool Lia.
From Stdlib Require Import Strings.Byte Decimal DecimalString DecimalN SpecFloat.
From stdpp Require Import base gmap sets strings.

Open Scope string_scope.
Open Scope Z_scope.

(** ** Exceptions and results *)

Inductive exn : Type :=
| ValueError
| NotImplementedError
| AttributeError
| CouldNotDecodeOID
| SmiError
| PyAsn1Error
| TypeError
| OverflowError.

Inductive result (A : Type) : Type :=
| Ok (a : A)
| Raise (e : exn).

Arguments Ok {A} a.
Arguments Raise {A} e.

(** ** Library objects *)

(** An ASN.1 tag: class, format and identifier. *)
Definition Tag : Type := (N * N * N)%type.

(** A subtype constraint: its name and its parameters. *)
Definition Constraint : Type := (string * list Z)%type.

(** A PyASN1 value, as the module sees it. *)
Record Asn1 : Type := {
  asn1_class : string;                (* value.__class__.__name__ *)
  asn1_bases : list string;           (* the classes it inherits from *)
  asn1_tagSet : list Tag;             (* value.tagSet *)
  asn1_subtypeSpec : list Constraint; (* value.subtypeSpec *)
  asn1_int : result Z;                (* int(value) *)
  asn1_float : result spec_float;     (* float(value) *)
  asn1_bytes : result (list byte);    (* bytes(value) *)
  asn1_str : string;                  (* str(value) *)
  asn1_pretty : string;               (* value.prettyPrint() *)
  asn1_tuple : result (list Z)        (* value.asTuple() *)
}.

(** [isinstance(value, cls)] for a PyASN1 value; classes go by name. *)
Definition isinstance (value : Asn1) (cls : string) : bool :=
  bool_decide (cls ∈ asn1_class value :: asn1_bases value).

(** [self.isSameTypeWith(other)]: tags and constraints are compared. *)
Definition isSameTypeWith (self other : Asn1) : bool :=
  bool_decide (asn1_tagSet self = asn1_tagSet other)
  && bool_decide (asn1_subtypeSpec self = asn1_subtypeSpec other).

(** What a PySNMP [ObjectIdentity] was built from. *)
Inductive IdentityArgs : Type :=
| ArgsTuple (t : list Z)
| ArgsSymbol (mib symbol : string) (indexes : list Z).

(** The symbolic-identity handle of PySNMP. [getOID()] and [getMibSymbol()]
    raise [SmiError] as long as the handle is not resolved against a MIB. *)
Record ObjectIdentity : Type := {
  identity_args : IdentityArgs;
  identity_getOID : result (list Z);
  identity_getMibSymbol : result (string * string * list Asn1)
}.

(** [ObjectIdentity(t)] for a tuple [t]: a new, unresolved handle. *)
Definition ObjectIdentity_new (t : list Z) : ObjectIdentity :=
  {| identity_args := ArgsTuple t;
     identity_getOID := Raise SmiError;
     identity_getMibSymbol := Raise SmiError |}.

(** The typed-object handle of PySNMP: an identity and a payload. *)
Record ObjectType : Type := {
  objectType_identity : ObjectIdentity;
  objectType_value : option Asn1
}.

(** [ObjectType(identity)]: a new typed object without payload. *)
Definition ObjectType_new (identity : ObjectIdentity) : ObjectType :=
  {| objectType_identity := identity; objectType_value := None |}.

(** The representations an [OID] may be built from. *)
Inductive Raw : Type :=
| RawSeq (xs : list Z)            (* a list or tuple of ints *)
| RawStr (s : string)             (* a dotted string *)
| RawName (v : Asn1)              (* an ObjectName / ObjectIdentifier *)
| RawIdentity (h : ObjectIdentity)
| RawObjectType (t : ObjectType).

(** ** The monad of the methods *)

(** Calls to the collaborators of the module. *)
Inductive Call : Type :=
| Call_parse_as_oid_tuple (value : Raw)
| Call_getMibSymbol (h : ObjectIdentity)
| Call_pyasn1_decode (octets : list byte).

Definition M (A : Type) : Type := (list Call * result A)%type.

Definition ret {A} (a : A) : M A := ([], Ok a).

Definition raise {A} (e : exn) : M A := ([], Raise e).

Definition lift {A} (r : result A) : M A := ([], r).

Definition call {A} (c : Call) (r : result A) : M A := ([c], r).

Definition bind {A B} (m : M A) (k : A -> M B) : M B :=
  match m with
  | (log, Ok a) => let '(log', r) := k a in ((log ++ log')%list, r)
  | (log, Raise e) => (log, Raise e)
  end.

Notation "'let*' x ':=' c1 'in' c2" := (bind c1 (fun x => c2))
  (at level 10, x pattern, c1 at level 100, c2 at level 200).

(** The calls made by a computation, and how it ended. *)
Definition calls {A} (m : M A) : list Call := fst m.
Definition outcome {A} (m : M A) : result A := snd m.

(** ** Collaborators *)

(** The functions the module imports: [parse_as_oid_tuple] and
    [format_as_oid_string] from [utils], [decode] from the BER codec. *)
Class Collaborators : Type := {
  parse_as_oid_tuple : Raw -> result (list Z);
  format_as_oid_string : list Z -> string;
  pyasn1_decode : list byte -> result (Asn1 * list byte)
}.

(** ** SNMP value types that are explicitly supported *)

Definition SNMP_COUNTER_CLASSES : gset string :=
  {[ "Counter32"; "Counter64"; "ZeroBasedCounter64" ]}.

Definition SNMP_GAUGE_CLASSES : gset string :=
  {[ "Gauge32"; "Integer"; "Integer32"; "Unsigned32"; "CounterBasedGauge64" ]}.

(** ** OID *)

Record OID : Type := {
  raw : Raw;
  _parts : option (list Z)   (* [None]: the attribute is not set yet *)
}.

(** What [isinstance(other, OID)] tells apart. *)
Inductive PyAny : Type :=
| AnyOID (o : OID)
| AnyOther.

Module OID_.
Section Methods.
Context `{Collaborators}.

Definition __init__ (value : Raw) : OID :=
  {| raw := value; _parts := None |}.

Definition _initialize (self : OID) : M OID :=
  let value := raw self in
  let* parts := call (Call_parse_as_oid_tuple value) (parse_as_oid_tuple value) in
  ret {| raw := raw self; _parts := Some parts |}.

Definition get_mib_symbol (self : OID) : M (string * list string) :=
  match raw self with
  | RawIdentity h =>
      let* (_, metric, indexes) := call (Call_getMibSymbol h) (identity_getMibSymbol h) in
      ret (metric, map asn1_str indexes)
  | _ => raise NotImplementedError
  end.

Definition resolve_as_tuple (self : OID) : M (list Z * OID) :=
  let* self := _initialize self in
  match _parts self with
  | Some parts => ret (parts, self)
  | None => raise AttributeError
  end.

Definition maybe_resolve_as_object_type (self : OID) : M (ObjectType * OID) :=
  match raw self with
  | RawObjectType t => ret (t, self)
  | RawIdentity h => ret (ObjectType_new h, self)
  | _ =>
      let* (parts, self) := resolve_as_tuple self in
      ret (ObjectType_new (ObjectIdentity_new parts), self)
  end.

Definition __eq__ (self : OID) (other : PyAny) : M (bool * OID * PyAny) :=
  match other with
  | AnyOID o =>
      let* (l, self) := resolve_as_tuple self in
      let* (r, o) := resolve_as_tuple o in
      ret (bool_decide (l = r), self, AnyOID o)
  | AnyOther => ret (false, self, other)
  end.

Definition __str__ (self : OID) : M (string * OID) :=
  let* (parts, self) := resolve_as_tuple self in
  ret (format_as_oid_string parts, self).

End Methods.
End OID_.

(** ** Sentinels *)

Definition tagClassContext : N := 128%N.
Definition tagFormatSimple : N := 0%N.

(** Modelled from the spec: the sentinel singletons [noSuchObject],
    [noSuchInstance] and [endOfMibView] come from [pysnmp_types], which is
    imported but not part of the sources at hand; the spec lists them as three
    distinct sentinel type tags.  They are NULL values tagged implicitly with
    the context tags 0, 1 and 2 (RFC 3416). *)
Definition sentinel (name : string) (tagId : N) (pretty : string) : Asn1 :=
  {| asn1_class := name;
     asn1_bases := ["Null"; "OctetString"; "Asn1Type"];
     asn1_tagSet := [(tagClassContext, tagFormatSimple, tagId)];
     asn1_subtypeSpec := [("SingleValueConstraint", [])];
     asn1_int := Raise ValueError;
     asn1_float := Raise ValueError;
     asn1_bytes := Ok [];
     asn1_str := "";
     asn1_pretty := pretty;
     asn1_tuple := Raise AttributeError |}.

Definition noSuchObject : Asn1 :=
  sentinel "NoSuchObject" 0%N "No Such Object currently exists at this OID".

Definition noSuchInstance : Asn1 :=
  sentinel "NoSuchInstance" 1%N "No Such Instance currently exists at this OID".

Definition endOfMibView : Asn1 :=
  sentinel "EndOfMibView" 2%N "No more variables left in this MIB View".

(** ** Value *)

(** What a [Value] holds: our [OID], or the PyASN1 value it was given. *)
Inductive Inner : Type :=
| InnerOID (o : OID)
| InnerAsn1 (v : Asn1).

Record Value : Type := { _value : Inner }.

(** What a [Value] is built from: a PyASN1 value or an [ObjectIdentity]. *)
Inductive Payload : Type :=
| PayloadAsn1 (v : Asn1)
| PayloadIdentity (h : ObjectIdentity).

(** [x.__class__.__name__] for what a [Value] holds. *)
Definition class_name (x : Inner) : string :=
  match x with
  | InnerOID _ => "OID"
  | InnerAsn1 v => asn1_class v
  end.

Module Value_.
Section Methods.
Context `{Collaborators}.

Definition __init__ (value : Payload) : Value :=
  match value with
  | PayloadAsn1 v =>
      if isinstance v "ObjectIdentifier"
      then {| _value := InnerOID (OID_.__init__ (RawName v)) |}
      else {| _value := InnerAsn1 v |}
  | PayloadIdentity h => {| _value := InnerOID (OID_.__init__ (RawIdentity h)) |}
  end.

Definition is_counter (self : Value) : bool :=
  bool_decide (class_name (_value self) ∈ SNMP_COUNTER_CLASSES).

Definition is_gauge (self : Value) : bool :=
  bool_decide (class_name (_value self) ∈ SNMP_GAUGE_CLASSES).

Definition is_opaque (self : Value) : bool :=
  String.eqb (class_name (_value self)) "Opaque".

Definition __int__ (self : Value) : M Z :=
  match _value self with
  | InnerOID _ => raise ValueError
  | InnerAsn1 v => lift (asn1_int v)
  end.

Definition __float__ (self : Value) : M spec_float :=
  match _value self with
  | InnerOID _ => raise ValueError
  | InnerAsn1 v =>
      if is_opaque self then
        let* octets := lift (asn1_bytes v) in
        let* (decoded, _) := call (Call_pyasn1_decode octets) (pyasn1_decode octets) in
        lift (asn1_float decoded)
      else lift (asn1_float v)
  end.

Definition __bool__ (self : Value) : bool :=
  match _value self with
  | InnerOID _ => true
  | InnerAsn1 v =>
      if isSameTypeWith noSuchInstance v then false
      else if isSameTypeWith noSuchObject v then false
      else true
  end.

Definition __nonzero__ (self : Value) : bool := __bool__ self.

Definition __str__ (self : Value) : M (string * Value) :=
  match _value self with
  | InnerOID o =>
      let* (s, o) := OID_.__str__ o in
      ret (s, {| _value := InnerOID o |})
  | InnerAsn1 value =>
      if isSameTypeWith noSuchInstance value then ret ("NoSuchInstance", self)
      else if isSameTypeWith noSuchObject value then ret ("NoSuchObject", self)
      else if isSameTypeWith endOfMibView value then ret ("EndOfMibView", self)
      else ret (asn1_pretty value, self)
  end.

End Methods.
End Value_.

(** ** The helpers of [utils] *)

Module utils.

(** [s.split(sep)] for a one-character separator. *)
Fixpoint split (sep : ascii) (s : string) : list string :=
  match s with
  | EmptyString => [EmptyString]
  | String c rest =>
      if Ascii.eqb c sep then EmptyString :: split sep rest
      else match split sep rest with
           | tok :: toks => String c tok :: toks
           | [] => [String c EmptyString]
           end
  end.

(** [str(n)] for an int. *)
Definition str_of_int (n : Z) : string := NilEmpty.string_of_int (Z.to_int n).

(** Modelled from the spec: [utils.format_as_oid_string] is imported but
    not part of the sources at hand; the spec has the string form made by
    "formatting each component joined by [.]". *)
Definition format_as_oid_string (parts : list Z) : string :=
  String.concat "." (map str_of_int parts).

Definition is_digit (c : ascii) : bool :=
  ((48 <=? N_of_ascii c) && (N_of_ascii c <=? 57))%N.

Fixpoint all_digits (s : string) : bool :=
  match s with
  | EmptyString => true
  | String c rest => is_digit c && all_digits rest
  end.

(** Modelled from the spec: the components of a valid dotted string.  The
    spec has the string form "canonical", made by formatting each component,
    and has the string form of every valid dotted string be that string: a
    component is a decimal numeral as [str()] prints it, not empty, of
    digits only, without a superfluous leading zero. *)
Definition canonical_component (tok : string) : bool :=
  match tok with
  | EmptyString => false
  | String c rest =>
      all_digits tok && (negb (Ascii.eqb c "0") || String.eqb rest "")
  end.

(** Modelled from the spec: one token of a dotted numeric path.  An empty
    token, a token that is not such a numeral and a negative component are
    malformed. *)
Definition parse_component (tok : string) : result Z :=
  if canonical_component tok then
    match NilEmpty.uint_of_string tok with
    | Some d => Ok (Z.of_uint d)
    | None => Raise CouldNotDecodeOID
    end
  else Raise CouldNotDecodeOID.

Fixpoint parse_components (toks : list string) : result (list Z) :=
  match toks with
  | [] => Ok []
  | tok :: toks =>
      match parse_component tok with
      | Ok n =>
          match parse_components toks with
          | Ok ns => Ok (n :: ns)
          | Raise e => Raise e
          end
      | Raise e => Raise e
      end
  end.

(** Modelled from the spec: a numeric sequence is an ordered sequence of
    non-negative integers; an empty one and a negative component are
    malformed. *)
Definition parse_sequence (xs : list Z) : result (list Z) :=
  match xs with
  | [] => Raise CouldNotDecodeOID
  | _ => if forallb (Z.leb 0) xs then Ok xs else Raise CouldNotDecodeOID
  end.

(** Modelled from the spec: resolution through the symbolic-identity
    handle; a handle that cannot be resolved is malformed. *)
Definition parse_identity (h : ObjectIdentity) : result (list Z) :=
  match identity_getOID h with
  | Ok t => Ok t
  | Raise _ => Raise CouldNotDecodeOID
  end.

(** Modelled from the spec: [utils.parse_as_oid_tuple] is imported but not
    part of the sources at hand.  The spec has it interpret [raw] "as a
    dotted numeric path, a numeric sequence, or resolved via the
    symbolic-identity handle", and fail with the malformed-identifier
    error otherwise ("empty, non-numeric tokens, negative components"). *)
Definition parse_as_oid_tuple (value : Raw) : result (list Z) :=
  match value with
  | RawSeq xs => parse_sequence xs
  | RawStr s => parse_components (split "." s)
  | RawName v =>
      match asn1_tuple v with
      | Ok t => parse_sequence t
      | Raise _ => Raise CouldNotDecodeOID
      end
  | RawIdentity h => parse_identity h
  | RawObjectType t => parse_identity (objectType_identity t)
  end.

End utils.

(** ** A decoder to run the examples *)

Module ber.

(** The binary64 number nearest to an int. *)
Definition float_of_int (n : Z) : spec_float := binary_normalize 53 1024 n 0 false.

(** [float(n)] for an int: the nearest binary64 number, and
    [OverflowError] for an int too large for one. *)
Definition py_float (n : Z) : result spec_float :=
  match float_of_int n with
  | S754_infinity _ => Raise OverflowError
  | f => Ok f
  end.

(** Big-endian two's complement content octets. *)
Definition unsigned_of_octets (octets : list byte) : Z :=
  fold_left (fun acc b => acc * 256 + Z.of_N (Byte.to_N b)) octets 0.

Definition signed_of_octets (octets : list byte) : Z :=
  let u := unsigned_of_octets octets in
  let bits := 8 * Z.of_nat (length octets) in
  if Z.testbit u (bits - 1) then u - 2 ^ bits else u.

Definition Integer (n : Z) : Asn1 :=
  {| asn1_class := "Integer";
     asn1_bases := ["Asn1Type"];
     asn1_tagSet := [(0, 0, 2)%N];
     asn1_subtypeSpec := [];
     asn1_int := Ok n;
     asn1_float := py_float n;
     asn1_bytes := Raise TypeError;
     asn1_str := utils.str_of_int n;
     asn1_pretty := utils.str_of_int n;
     asn1_tuple := Raise AttributeError |}.

(** The BER decoding of a universal INTEGER with a one-octet length: the
    part of the codec the examples go through. *)
Definition decode (octets : list byte) : result (Asn1 * list byte) :=
  match octets with
  | x02 :: len :: rest =>
      let n := N.to_nat (Byte.to_N len) in
      if (n <? 128)%nat && (n <=? length rest)%nat
      then Ok (Integer (signed_of_octets (firstn n rest)), skipn n rest)
      else Raise PyAsn1Error
  | _ => Raise PyAsn1Error
  end.

End ber.

(** The module with the helpers of [utils] and the decoder above. *)
Definition collaborators : Collaborators :=
  {| parse_as_oid_tuple := utils.parse_as_oid_tuple;
     format_as_oid_string := utils.format_as_oid_string;
     pyasn1_decode := ber.decode |}.

(** ** Values for the examples *)

Module fixtures.

(** Classes of PySNMP, as far as the module looks at them. *)
Definition Counter64 (n : Z) : Asn1 :=
  {| asn1_class := "Counter64";
     asn1_bases := ["Integer"; "Asn1Type"];
     asn1_tagSet := [(64, 0, 6)%N];
     asn1_subtypeSpec := [("ValueRangeConstraint", [0; 18446744073709551615])];
     asn1_int := Ok n;
     asn1_float := ber.py_float n;
     asn1_bytes := Raise TypeError;
     asn1_str := utils.str_of_int n;
     asn1_pretty := utils.str_of_int n;
     asn1_tuple := Raise AttributeError |}.

(** [CounterBasedGauge64] of HCNUM-TC (RFC 2856) inherits from
    [Counter64]. *)
Definition CounterBasedGauge64 (n : Z) : Asn1 :=
  {| asn1_class := "CounterBasedGauge64";
     asn1_bases := ["TextualConvention"; "Counter64"; "Integer"; "Asn1Type"];
     asn1_tagSet := [(64, 0, 6)%N];
     asn1_subtypeSpec := [("ValueRangeConstraint", [0; 18446744073709551615])];
     asn1_int := Ok n;
     asn1_float := ber.py_float n;
     asn1_bytes := Raise TypeError;
     asn1_str := utils.str_of_int n;
     asn1_pretty := utils.str_of_int n;
     asn1_tuple := Raise AttributeError |}.

Definition Opaque (octets : list byte) (pretty : string) : Asn1 :=
  {| asn1_class := "Opaque";
     asn1_bases := ["OctetString"; "Asn1Type"];
     asn1_tagSet := [(64, 0, 4)%N];
     asn1_subtypeSpec := [];
     asn1_int := Raise ValueError;
     asn1_float := Raise ValueError;
     asn1_bytes := Ok octets;
     asn1_str := pretty;
     asn1_pretty := pretty;
     asn1_tuple := Raise AttributeError |}.

Definition ObjectName (t : list Z) : Asn1 :=
  {| asn1_class := "ObjectName";
     asn1_bases := ["ObjectIdentifier"; "Asn1Type"];
     asn1_tagSet := [(0, 0, 6)%N];
     asn1_subtypeSpec := [];
     asn1_int := Raise TypeError;
     asn1_float := Raise TypeError;
     asn1_bytes := Raise TypeError;
     asn1_str := utils.format_as_oid_string t;
     asn1_pretty := utils.format_as_oid_string t;
     asn1_tuple := Ok t |}.

(** [ObjectIdentity('SNMPv2-MIB', 'sysDescr', 0)], resolved. *)
Definition sysDescr : ObjectIdentity :=
  {| identity_args := ArgsSymbol "SNMPv2-MIB" "sysDescr" [0];
     identity_getOID := Ok [1; 3; 6; 1; 2; 1; 1; 1; 0];
     identity_getMibSymbol := Ok ("SNMPv2-MIB", "sysDescr", [ber.Integer 0]) |}.

End fixtures.

(** An opaque value that holds the BER encoding of the integer 42. *)
Definition opaque42 : Asn1 := fixtures.Opaque [x02; x01; x2a] "0x02012a".

(** ** Notions used in the statements *)

(** Whether [Value.__init__] wraps the payload in an [OID]:
    [isinstance(value, (ObjectIdentifier, ObjectIdentity))]. *)
Definition identifier_typed (value : Payload) : bool :=
  match value with
  | PayloadAsn1 v => isinstance v "ObjectIdentifier"
  | PayloadIdentity _ => true
  end.

(** The payload as the raw representation of an [OID]. *)
Definition payload_raw (value : Payload) : Raw :=
  match value with
  | PayloadAsn1 v => RawName v
  | PayloadIdentity h => RawIdentity h
  end.

(** What [float()] does with an opaque value: decode the octets, then
    coerce the decoded value. *)
Definition float_of_decoded `{Collaborators} (octets : list byte) : result spec_float :=
  match pyasn1_decode octets with
  | Ok (decoded, _) => asn1_float decoded
  | Raise e => Raise e
  end.

(** The claim that the numeric form is computed once: after a call that
    returned, the next call returns the same tuple without a call to the
    parser. *)
Definition resolves_from_cache `{Collaborators} (self : OID) : Prop :=
  forall (parts : list Z) (self' : OID),
    outcome (OID_.resolve_as_tuple self) = Ok (parts, self') ->
    OID_.resolve_as_tuple self' = ([], Ok (parts, self')).

(** A resolved [OID]: same [raw], [_parts] set. *)
Definition resolved (self : OID) (parts : list Z) : OID :=
  {| raw := raw self; _parts := Some parts |}.

(** ** Variable *)

(** An SNMP variable, i.e. an OID associated to a value. *)
Record SnmpVariable : Type := { oid : OID; value : Value }.

Module Variable_.
Section Methods.
Context `{Collaborators}.

Definition __init__ (o : OID) (v : Value) : SnmpVariable :=
  {| oid := o; value := v |}.

(** ['({}, {})'.format(self.oid, self.value)]: each field goes through
    [str()], the oid first. *)
Definition __str__ (self : SnmpVariable) : M (string * SnmpVariable) :=
  let* (o, oid') := OID_.__str__ (oid self) in
  let* (v, value') := Value_.__str__ (value self) in
  ret ("(" ++ o ++ ", " ++ v ++ ")", {| oid := oid'; value := value' |}).

End Methods.
End Variable_.

(** ** Notions used in the further properties *)

(** The cache of an [OID] is consistent: when [_parts] is set, it is what
    the parser makes of [raw]. *)
Definition parts_consistent `{Collaborators} (self : OID) : Prop :=
  forall parts : list Z,
    _parts self = Some parts -> parse_as_oid_tuple (raw self) = Ok parts.

(** The [raw] of what [isinstance(other, OID)] tells apart. *)
Definition same_raw (before after : PyAny) : Prop :=
  match before, after with
  | AnyOID a, AnyOID b => raw b = raw a
  | AnyOther, AnyOther => True
  | _, _ => False
  end.

(** A symbolic-identity handle that is not resolved against a MIB. *)
Definition unresolved : ObjectIdentity :=
  {| identity_args := ArgsSymbol "IF-MIB" "ifDescr" [];
     identity_getOID := Raise SmiError;
     identity_getMibSymbol := Raise SmiError |}.

(** * Properties *)

(** ** The monad *)

Lemma calls_bind {A B} (m : M A) (k : A -> M B) (a : A) :
  outcome m = Ok a -> calls (bind m k) = (calls m ++ calls (k a))%list.
Proof.
  destruct m as [log [a'|e]]; simpl; intros E; [|discriminate].
  injection E as ->. unfold bind. destruct (k a) as [log' r]. reflexivity.
Qed.

Lemma outcome_bind {A B} (m : M A) (k : A -> M B) (a : A) :
  outcome m = Ok a -> outcome (bind m k) = outcome (k a).
Proof.
  destruct m as [log [a'|e]]; simpl; intros E; [|discriminate].
  injection E as ->. unfold bind. destruct (k a) as [log' r]. reflexivity.
Qed.

Lemma bind_raise {A B} (m : M A) (k : A -> M B) (e : exn) :
  outcome m = Raise e -> bind m k = (calls m, Raise e).
Proof.
  destruct m as [log [a'|e']]; simpl; intros E; [discriminate|].
  injection E as ->. reflexivity.
Qed.

(** ** Classification of values *)

Lemma init_identifier (p : Payload) :
  identifier_typed p = true ->
  _value (Value_.__init__ p) = InnerOID (OID_.__init__ (payload_raw p)).
Proof.
  destruct p as [v|h]; simpl; [|reflexivity].
  intros ->. reflexivity.
Qed.

Lemma init_asn1 (v : Asn1) :
  isinstance v "ObjectIdentifier" = false ->
  _value (Value_.__init__ (PayloadAsn1 v)) = InnerAsn1 v.
Proof. simpl. intros ->. reflexivity. Qed.

Lemma is_counter_closed (val : Value) :
  Value_.is_counter val = true <->
  class_name (_value val) ∈ ["Counter32"; "Counter64"; "ZeroBasedCounter64"].
Proof.
  unfold Value_.is_counter, SNMP_COUNTER_CLASSES.
  rewrite bool_decide_eq_true, !elem_of_union, !elem_of_singleton.
  rewrite !elem_of_cons, elem_of_nil. tauto.
Qed.

Lemma is_gauge_closed (val : Value) :
  Value_.is_gauge val = true <->
  class_name (_value val)
    ∈ ["Gauge32"; "Integer"; "Integer32"; "Unsigned32"; "CounterBasedGauge64"].
Proof.
  unfold Value_.is_gauge, SNMP_GAUGE_CLASSES.
  rewrite bool_decide_eq_true, !elem_of_union, !elem_of_singleton.
  rewrite !elem_of_cons, elem_of_nil. tauto.
Qed.

Lemma is_opaque_iff (val : Value) :
  Value_.is_opaque val = true <-> class_name (_value val) = "Opaque".
Proof. unfold Value_.is_opaque. apply String.eqb_eq. Qed.

(** The three tests exclude each other. *)
Lemma counter_not_gauge (val : Value) :
  Value_.is_counter val = true ->
  Value_.is_gauge val = false /\ Value_.is_opaque val = false.
Proof.
  intros Hc. apply is_counter_closed in Hc.
  unfold Value_.is_gauge, Value_.is_opaque.
  revert Hc. generalize (class_name (_value val)). intros tag Hc.
  repeat (apply elem_of_cons in Hc as [-> | Hc]); try (split; reflexivity).
  by apply elem_of_nil in Hc.
Qed.

Lemma gauge_not_counter (val : Value) :
  Value_.is_gauge val = true ->
  Value_.is_counter val = false /\ Value_.is_opaque val = false.
Proof.
  intros Hg. apply is_gauge_closed in Hg.
  unfold Value_.is_counter, Value_.is_opaque.
  revert Hg. generalize (class_name (_value val)). intros tag Hg.
  repeat (apply elem_of_cons in Hg as [-> | Hg]); try (split; reflexivity).
  by apply elem_of_nil in Hg.
Qed.

(** C1: classification is a closed membership test on the name of the
    class of the wrapped value.  A value whose tag is one of [Counter32],
    [Counter64], [ZeroBasedCounter64] is a counter (and neither a gauge nor
    opaque); one whose tag is one of [Gauge32], [Integer], [Integer32],
    [Unsigned32], [CounterBasedGauge64] is a gauge (and neither a counter nor
    opaque); nothing else is a counter or a gauge.  A payload of class
    [CounterBasedGauge64] is a gauge and not a counter whatever its base
    classes are, [Counter64] included. *)
Theorem classification_closed_membership :
  (forall val : Value,
      (class_name (_value val) ∈ ["Counter32"; "Counter64"; "ZeroBasedCounter64"]
       <-> Value_.is_counter val = true)
      /\ (class_name (_value val)
            ∈ ["Gauge32"; "Integer"; "Integer32"; "Unsigned32"; "CounterBasedGauge64"]
          <-> Value_.is_gauge val = true)
      /\ (Value_.is_counter val = true ->
          Value_.is_gauge val = false /\ Value_.is_opaque val = false)
      /\ (Value_.is_gauge val = true ->
          Value_.is_counter val = false /\ Value_.is_opaque val = false))
  /\ (forall v : Asn1,
        isinstance v "ObjectIdentifier" = false ->
        class_name (_value (Value_.__init__ (PayloadAsn1 v))) = asn1_class v)
  /\ (forall v : Asn1,
        asn1_class v = "CounterBasedGauge64" ->
        isinstance v "ObjectIdentifier" = false ->
        Value_.is_gauge (Value_.__init__ (PayloadAsn1 v)) = true
        /\ Value_.is_counter (Value_.__init__ (PayloadAsn1 v)) = false).
Proof.
  split; [|split].
  - intros val. split; [|split; [|split]].
    + symmetry. apply is_counter_closed.
    + symmetry. apply is_gauge_closed.
    + apply counter_not_gauge.
    + apply gauge_not_counter.
  - intros v Hv. rewrite (init_asn1 v Hv). reflexivity.
  - intros v Hcls Hv.
    assert (Hg : Value_.is_gauge (Value_.__init__ (PayloadAsn1 v)) = true).
    { apply is_gauge_closed. rewrite (init_asn1 v Hv). simpl. rewrite Hcls.
      rewrite !elem_of_cons. tauto. }
    split; [exact Hg|]. apply (gauge_not_counter _ Hg).
Qed.

(** C10: a payload that is an object identifier or a symbolic identity is
    wrapped in an [OID] when the [Value] is built, and such a [Value] is
    neither a counter, nor a gauge, nor opaque, whatever the name of the
    class of the payload. *)
Theorem identifier_payload_is_wrapped (p : Payload) :
  identifier_typed p = true ->
  _value (Value_.__init__ p) = InnerOID (OID_.__init__ (payload_raw p))
  /\ Value_.is_counter (Value_.__init__ p) = false
  /\ Value_.is_gauge (Value_.__init__ p) = false
  /\ Value_.is_opaque (Value_.__init__ p) = false.
Proof.
  intros Hp. pose proof (init_identifier p Hp) as E.
  unfold Value_.is_counter, Value_.is_gauge, Value_.is_opaque.
  rewrite E. repeat split; reflexivity.
Qed.

(** ** Coercions *)

Section Coercions.
Context `{Collaborators}.

Lemma int_of_identifier (val : Value) (o : OID) :
  _value val = InnerOID o -> Value_.__int__ val = ([], Raise ValueError).
Proof. unfold Value_.__int__. intros ->. reflexivity. Qed.

Lemma float_of_identifier (val : Value) (o : OID) :
  _value val = InnerOID o -> Value_.__float__ val = ([], Raise ValueError).
Proof. unfold Value_.__float__. intros ->. reflexivity. Qed.

Lemma bool_of_identifier (val : Value) (o : OID) :
  _value val = InnerOID o -> Value_.__bool__ val = true.
Proof. unfold Value_.__bool__. intros ->. reflexivity. Qed.

(** C4: for a [Value] that holds an identifier, [int()] and [float()]
    raise [ValueError] (without calling the decoder) and [bool()] is
    [True], whatever the identifier is; this is so for every [Value] built
    from an identifier payload. *)
Theorem identifier_coercions :
  (forall (val : Value) (o : OID),
      _value val = InnerOID o ->
      outcome (Value_.__int__ val) = Raise ValueError
      /\ outcome (Value_.__float__ val) = Raise ValueError
      /\ calls (Value_.__float__ val) = []
      /\ Value_.__bool__ val = true)
  /\ (forall p : Payload,
        identifier_typed p = true ->
        outcome (Value_.__int__ (Value_.__init__ p)) = Raise ValueError
        /\ outcome (Value_.__float__ (Value_.__init__ p)) = Raise ValueError
        /\ Value_.__bool__ (Value_.__init__ p) = true).
Proof.
  assert (Hval : forall (val : Value) (o : OID),
             _value val = InnerOID o ->
             outcome (Value_.__int__ val) = Raise ValueError
             /\ outcome (Value_.__float__ val) = Raise ValueError
             /\ calls (Value_.__float__ val) = []
             /\ Value_.__bool__ val = true).
  { intros val o Hv.
    rewrite (int_of_identifier val o Hv), (float_of_identifier val o Hv).
    rewrite (bool_of_identifier val o Hv). repeat split; reflexivity. }
  split; [exact Hval|].
  intros p Hp.
  destruct (Hval _ _ (init_identifier p Hp)) as (Hi & Hf & _ & Hb).
  repeat split; assumption.
Qed.

(** C5: [float()] of a value of class [Opaque] decodes the octets of the
    value with the BER decoder, once, and returns the float coercion of
    the decoded value; for any other value that is not an identifier it
    coerces the wrapped value itself and the decoder is not called. *)
Theorem float_decodes_opaque_only (val : Value) (v : Asn1) :
  _value val = InnerAsn1 v ->
  (Value_.is_opaque val = true ->
   forall octets : list byte,
     asn1_bytes v = Ok octets ->
     calls (Value_.__float__ val) = [Call_pyasn1_decode octets]
     /\ outcome (Value_.__float__ val) = float_of_decoded octets)
  /\ (Value_.is_opaque val = false ->
      calls (Value_.__float__ val) = []
      /\ outcome (Value_.__float__ val) = asn1_float v).
Proof.
  intros Hv. unfold Value_.__float__. rewrite Hv. split.
  - intros -> octets Hb. rewrite Hb. unfold float_of_decoded, lift, call.
    simpl. destruct (pyasn1_decode octets) as [[decoded rest]|e]; simpl.
    + split; reflexivity.
    + split; reflexivity.
  - intros ->. split; reflexivity.
Qed.

(** ** Sentinels *)

Lemma sentinel_tags (name pretty : string) (tagId : N) (v : Asn1) :
  isSameTypeWith (sentinel name tagId pretty) v = true ->
  asn1_tagSet v = [(tagClassContext, tagFormatSimple, tagId)].
Proof.
  unfold isSameTypeWith. intros E. apply andb_true_iff in E as [E _].
  apply bool_decide_eq_true in E. symmetry. exact E.
Qed.

Lemma sentinels_differ (n1 n2 p1 p2 : string) (t1 t2 : N) (v : Asn1) :
  t1 <> t2 ->
  isSameTypeWith (sentinel n1 t1 p1) v = true ->
  isSameTypeWith (sentinel n2 t2 p2) v = false.
Proof.
  intros Hne E. apply sentinel_tags in E.
  unfold isSameTypeWith. apply andb_false_iff. left.
  apply bool_decide_eq_false. rewrite E. simpl. intros [= ?]. congruence.
Qed.

(** C6: a [Value] that holds a value of the type of [noSuchInstance] or
    of [noSuchObject] is false, and its string is the literal
    [NoSuchInstance], resp. [NoSuchObject]; one of the type of
    [endOfMibView] has the string [EndOfMibView] and is true, as is every
    held value that is of neither of the first two types. *)
Theorem sentinel_bool_and_str (val : Value) (v : Asn1) :
  _value val = InnerAsn1 v ->
  (isSameTypeWith noSuchInstance v = true ->
   Value_.__bool__ val = false
   /\ Value_.__str__ val = ([], Ok ("NoSuchInstance", val)))
  /\ (isSameTypeWith noSuchObject v = true ->
      Value_.__bool__ val = false
      /\ Value_.__str__ val = ([], Ok ("NoSuchObject", val)))
  /\ (isSameTypeWith endOfMibView v = true ->
      Value_.__bool__ val = true
      /\ Value_.__str__ val = ([], Ok ("EndOfMibView", val)))
  /\ (isSameTypeWith noSuchInstance v = false ->
      isSameTypeWith noSuchObject v = false ->
      Value_.__bool__ val = true).
Proof.
  intros Hv. unfold Value_.__bool__, Value_.__str__. rewrite Hv.
  split; [|split; [|split]].
  - intros ->. split; reflexivity.
  - intros E.
    assert (E1 : isSameTypeWith noSuchInstance v = false)
      by (eapply sentinels_differ; [|exact E]; discriminate).
    rewrite E1, E. split; reflexivity.
  - intros E.
    assert (E1 : isSameTypeWith noSuchInstance v = false)
      by (eapply sentinels_differ; [|exact E]; discriminate).
    assert (E2 : isSameTypeWith noSuchObject v = false)
      by (eapply sentinels_differ; [|exact E]; discriminate).
    rewrite E1, E2, E. split; reflexivity.
  - intros -> ->. reflexivity.
Qed.

End Coercions.

(** ** Resolution of object identifiers *)

Section Resolution.
Context `{Collaborators}.

Lemma resolve_as_tuple_unfold (self : OID) :
  OID_.resolve_as_tuple self
  = ([Call_parse_as_oid_tuple (raw self)],
     match parse_as_oid_tuple (raw self) with
     | Ok parts => Ok (parts, resolved self parts)
     | Raise e => Raise e
     end).
Proof.
  unfold OID_.resolve_as_tuple, OID_._initialize, call, bind, ret.
  destruct (parse_as_oid_tuple (raw self)) as [parts|e]; reflexivity.
Qed.

Lemma resolve_as_tuple_ok (self self' : OID) (parts : list Z) :
  outcome (OID_.resolve_as_tuple self) = Ok (parts, self') ->
  parse_as_oid_tuple (raw self) = Ok parts /\ self' = resolved self parts.
Proof.
  rewrite resolve_as_tuple_unfold. simpl.
  destruct (parse_as_oid_tuple (raw self)) as [p|e]; [|discriminate].
  intros [= -> <-]. split; reflexivity.
Qed.

Lemma resolve_as_tuple_raise (self : OID) (e : exn) :
  outcome (OID_.resolve_as_tuple self) = Raise e ->
  parse_as_oid_tuple (raw self) = Raise e.
Proof.
  rewrite resolve_as_tuple_unfold. simpl.
  destruct (parse_as_oid_tuple (raw self)) as [p|e']; [discriminate|].
  intros [= ->]. reflexivity.
Qed.

(** C2, as the code has it: every call of [resolve_as_tuple] calls the
    parser on [raw], exactly once, whether [_parts] is set or not; when
    the parser returns, the tuple is stored in [_parts] and returned, and
    [raw] is left as it was, so that the next call parses [raw] again and
    returns the same tuple. *)
Theorem resolve_as_tuple_parses_every_time (self : OID) :
  calls (OID_.resolve_as_tuple self) = [Call_parse_as_oid_tuple (raw self)]
  /\ forall (parts : list Z) (self' : OID),
      outcome (OID_.resolve_as_tuple self) = Ok (parts, self') ->
      parse_as_oid_tuple (raw self) = Ok parts
      /\ raw self' = raw self
      /\ _parts self' = Some parts
      /\ OID_.resolve_as_tuple self'
         = ([Call_parse_as_oid_tuple (raw self)], Ok (parts, self')).
Proof.
  split.
  - rewrite resolve_as_tuple_unfold. reflexivity.
  - intros parts self' E. apply resolve_as_tuple_ok in E as [Hp ->].
    repeat split; try assumption.
    rewrite resolve_as_tuple_unfold. simpl. rewrite Hp. reflexivity.
Qed.

(** C3: two [OID]s whose numeric forms resolve are equal exactly when
    the resolved tuples are equal, whatever they were built from. *)
Theorem eq_iff_resolved_tuples_equal (a b a' b' : OID) (ta tb : list Z) :
  outcome (OID_.resolve_as_tuple a) = Ok (ta, a') ->
  outcome (OID_.resolve_as_tuple b) = Ok (tb, b') ->
  exists r : bool,
    outcome (OID_.__eq__ a (AnyOID b)) = Ok (r, a', AnyOID b')
    /\ (r = true <-> ta = tb).
Proof.
  intros Ha Hb. exists (bool_decide (ta = tb)). split.
  - unfold OID_.__eq__.
    rewrite (outcome_bind _ _ _ Ha). rewrite (outcome_bind _ _ _ Hb).
    reflexivity.
  - apply bool_decide_eq_true.
Qed.

(** C7: [get_mib_symbol] raises [NotImplementedError], without a MIB
    symbol lookup, unless [raw] is a symbolic-identity handle: it returns
    only for such a handle. *)
Theorem get_mib_symbol_needs_identity (self : OID) :
  ((forall h : ObjectIdentity, raw self <> RawIdentity h) ->
   OID_.get_mib_symbol self = ([], Raise NotImplementedError))
  /\ (forall r : string * list string,
        outcome (OID_.get_mib_symbol self) = Ok r ->
        exists h : ObjectIdentity, raw self = RawIdentity h).
Proof.
  unfold OID_.get_mib_symbol. split.
  - intros Hraw. destruct (raw self) as [xs|s|v|h|t]; try reflexivity.
    destruct (Hraw h). reflexivity.
  - intros r. destruct (raw self) as [xs|s|v|h|t]; try discriminate.
    intros _. exists h. reflexivity.
Qed.

(** C8: [maybe_resolve_as_object_type] returns the typed-object handle
    held in [raw] as it is, and an [ObjectType] made of the [ObjectIdentity]
    held in [raw], in both cases without resolving anything; in the
    remaining cases it resolves the numeric form and returns an
    [ObjectType] made of a new [ObjectIdentity] of the resolved tuple, or
    raises what the resolution raised. *)
Theorem maybe_resolve_as_object_type_cases (self : OID) :
  (forall t : ObjectType,
      raw self = RawObjectType t ->
      OID_.maybe_resolve_as_object_type self = ([], Ok (t, self)))
  /\ (forall h : ObjectIdentity,
        raw self = RawIdentity h ->
        OID_.maybe_resolve_as_object_type self = ([], Ok (ObjectType_new h, self)))
  /\ ((forall t : ObjectType, raw self <> RawObjectType t) ->
      (forall h : ObjectIdentity, raw self <> RawIdentity h) ->
      calls (OID_.maybe_resolve_as_object_type self)
      = calls (OID_.resolve_as_tuple self)
      /\ (forall (parts : list Z) (self' : OID),
            outcome (OID_.resolve_as_tuple self) = Ok (parts, self') ->
            outcome (OID_.maybe_resolve_as_object_type self)
            = Ok (ObjectType_new (ObjectIdentity_new parts), self'))
      /\ (forall e : exn,
            outcome (OID_.resolve_as_tuple self) = Raise e ->
            outcome (OID_.maybe_resolve_as_object_type self) = Raise e)).
Proof.
  unfold OID_.maybe_resolve_as_object_type. split; [|split].
  - intros t ->. reflexivity.
  - intros h ->. reflexivity.
  - intros Ht Hh.
    assert (E : match raw self with
                | RawObjectType t => ret (t, self)
                | RawIdentity h => ret (ObjectType_new h, self)
                | _ =>
                    let* (parts, self) := OID_.resolve_as_tuple self in
                    ret (ObjectType_new (ObjectIdentity_new parts), self)
                end
                = let* (parts, self) := OID_.resolve_as_tuple self in
                  ret (ObjectType_new (ObjectIdentity_new parts), self)).
    { destruct (raw self) as [xs|s|v|h|t] eqn:Hraw; try reflexivity.
      - destruct (Hh h). reflexivity.
      - destruct (Ht t). reflexivity. }
    rewrite E. clear E. rewrite resolve_as_tuple_unfold.
    destruct (parse_as_oid_tuple (raw self)) as [p|e]; simpl.
    + repeat split; [|discriminate].
      intros parts self' [= <- <-]. reflexivity.
    + repeat split; [discriminate|].
      intros e' [= <-]. reflexivity.
Qed.

End Resolution.

(** ** Dotted strings *)

Section Dotted.

Lemma split_not_nil (sep : ascii) (s : string) : utils.split sep s <> [].
Proof.
  destruct s as [|c rest]; simpl; [discriminate|].
  destruct (Ascii.eqb c sep); [discriminate|].
  destruct (utils.split sep rest); discriminate.
Qed.

Lemma concat_cons_char (c : ascii) (tok : string) (toks : list string) :
  String.concat "." (String c tok :: toks)
  = String c (String.concat "." (tok :: toks)).
Proof. destruct toks; reflexivity. Qed.

(** Joining what [split] returned gives the string back. *)
Lemma concat_split (s : string) :
  String.concat "." (utils.split "." s) = s.
Proof.
  induction s as [|c rest IH]; simpl; [reflexivity|].
  destruct (Ascii.eqb_spec c ".") as [->|Hc].
  - pose proof (split_not_nil "." rest) as Hne.
    destruct (utils.split "." rest) as [|tok toks]; [congruence|].
    change (String.concat "." ("" :: tok :: toks))
      with (String "." (String.concat "." (tok :: toks))).
    rewrite IH. reflexivity.
  - pose proof (split_not_nil "." rest) as Hne.
    destruct (utils.split "." rest) as [|tok toks]; [congruence|].
    rewrite concat_cons_char, IH. reflexivity.
Qed.

Lemma digit_char (c : ascii) (d : uint) :
  utils.is_digit c = true -> exists d', uint_of_char c (Some d) = Some d'.
Proof.
  destruct c as [[] [] [] [] [] [] [] []]; try discriminate;
    intros _; eexists; reflexivity.
Qed.

Lemma all_digits_uint (s : string) :
  utils.all_digits s = true -> exists d, NilEmpty.uint_of_string s = Some d.
Proof.
  induction s as [|c rest IH]; simpl.
  - intros _. exists Nil. reflexivity.
  - intros E. apply andb_true_iff in E as [Hc Hrest].
    destruct (IH Hrest) as [d ->]. apply digit_char. exact Hc.
Qed.

(** [str()] of a parsed numeral is the numeral without leading zeros. *)
Lemma str_of_uint (d : uint) :
  utils.str_of_int (Z.of_uint d) = NilEmpty.string_of_uint (unorm d).
Proof.
  unfold utils.str_of_int, Z.of_uint.
  rewrite <- (DecimalN.Unsigned.to_of d). unfold N.of_uint.
  destruct (Pos.of_uint d); reflexivity.
Qed.

Lemma unorm_head (c : ascii) (d d' : uint) :
  uint_of_char c (Some d) = Some d' ->
  Ascii.eqb c "0" = false \/ d = Nil ->
  unorm d' = d'.
Proof.
  intros Hc Hz. apply uint_of_char_spec in Hc.
  destruct Hc as [[-> ->]|Hc].
  - destruct Hz as [Hz| ->]; [discriminate|reflexivity].
  - repeat (destruct Hc as [[-> ->]|Hc]; [reflexivity|]).
    destruct Hc as [-> ->]. reflexivity.
Qed.

(** A token that is accepted is the string of its number. *)
Lemma parse_component_round_trip (tok : string) (n : Z) :
  utils.parse_component tok = Ok n -> utils.str_of_int n = tok.
Proof.
  unfold utils.parse_component.
  destruct (utils.canonical_component tok) eqn:E; [|discriminate].
  destruct tok as [|c rest]; [discriminate|].
  unfold utils.canonical_component in E.
  apply andb_true_iff in E as [Hd Hz].
  destruct (NilEmpty.uint_of_string (String c rest)) as [d|] eqn:Hu;
    [|discriminate].
  intros [= <-]. rewrite str_of_uint.
  assert (Hn : unorm d = d).
  { simpl in Hu. destruct (NilEmpty.uint_of_string rest) as [dr|] eqn:Hr;
      [|discriminate].
    apply (unorm_head c dr d Hu).
    destruct (Ascii.eqb c "0"); [right|left; reflexivity]. simpl in Hz.
    apply String.eqb_eq in Hz. subst rest. simpl in Hr.
    injection Hr as <-. reflexivity. }
  rewrite Hn. apply NilEmpty.sus. exact Hu.
Qed.

(** The tokens that are accepted are the canonical numerals. *)
Lemma parse_component_accepts (tok : string) :
  utils.canonical_component tok = true
  <-> exists n : Z, utils.parse_component tok = Ok n.
Proof.
  unfold utils.parse_component. split.
  - intros E. rewrite E. destruct tok as [|c rest]; [discriminate|].
    unfold utils.canonical_component in E.
    apply andb_true_iff in E as [Hd _].
    destruct (all_digits_uint _ Hd) as [d ->]. eexists. reflexivity.
  - intros [n Hn].
    destruct (utils.canonical_component tok); [reflexivity|discriminate].
Qed.

Lemma parse_components_round_trip (toks : list string) (ns : list Z) :
  utils.parse_components toks = Ok ns -> map utils.str_of_int ns = toks.
Proof.
  revert ns. induction toks as [|tok toks IH]; simpl; intros ns.
  - intros [= <-]. reflexivity.
  - destruct (utils.parse_component tok) as [n|e] eqn:Hn; [|discriminate].
    destruct (utils.parse_components toks) as [ms|e]; [|discriminate].
    intros [= <-]. simpl.
    rewrite (parse_component_round_trip tok n Hn), (IH ms eq_refl).
    reflexivity.
Qed.

End Dotted.

(** C9: for every valid dotted string [d], that is every [d] the parser
    accepts, the string form of the [OID] built from [d] is [d] itself. *)
Theorem str_round_trip (d : string) (parts : list Z) :
  utils.parse_as_oid_tuple (RawStr d) = Ok parts ->
  outcome (@OID_.__str__ collaborators (OID_.__init__ (RawStr d)))
  = Ok (d, {| raw := RawStr d; _parts := Some parts |}).
Proof.
  intros Hp. unfold OID_.__str__. rewrite resolve_as_tuple_unfold.
  change (parse_as_oid_tuple (raw (OID_.__init__ (RawStr d))))
    with (utils.parse_as_oid_tuple (RawStr d)).
  rewrite Hp. simpl. unfold utils.format_as_oid_string.
  simpl in Hp. rewrite (parse_components_round_trip _ _ Hp), concat_split.
  reflexivity.
Qed.

(** * Worked examples *)

(** A [CounterBasedGauge64] value, a subclass of [Counter64], is a gauge. *)
Lemma classification_closed_membership_witness :
  isinstance (fixtures.CounterBasedGauge64 7) "Counter64" = true
  /\ Value_.is_gauge (Value_.__init__ (PayloadAsn1 (fixtures.CounterBasedGauge64 7))) = true
  /\ Value_.is_counter (Value_.__init__ (PayloadAsn1 (fixtures.CounterBasedGauge64 7))) = false.
Proof.
  split; [reflexivity|].
  apply (proj2 (proj2 classification_closed_membership)); reflexivity.
Defined.

(** An [ObjectName] payload is wrapped and has no class of its own. *)
Lemma identifier_payload_is_wrapped_witness :
  identifier_typed (PayloadAsn1 (fixtures.ObjectName [1; 3; 6; 1])) = true
  /\ _value (Value_.__init__ (PayloadAsn1 (fixtures.ObjectName [1; 3; 6; 1])))
     = InnerOID (OID_.__init__ (RawName (fixtures.ObjectName [1; 3; 6; 1])))
  /\ Value_.is_counter (Value_.__init__ (PayloadAsn1 (fixtures.ObjectName [1; 3; 6; 1]))) = false
  /\ Value_.is_gauge (Value_.__init__ (PayloadAsn1 (fixtures.ObjectName [1; 3; 6; 1]))) = false
  /\ Value_.is_opaque (Value_.__init__ (PayloadAsn1 (fixtures.ObjectName [1; 3; 6; 1]))) = false.
Proof.
  split; [reflexivity|].
  apply (identifier_payload_is_wrapped
           (PayloadAsn1 (fixtures.ObjectName [1; 3; 6; 1]))).
  reflexivity.
Defined.

(** The value of [sysObjectID] cannot be a number. *)
Lemma identifier_coercions_witness :
  identifier_typed (PayloadIdentity fixtures.sysDescr) = true
  /\ outcome (@Value_.__int__ (Value_.__init__ (PayloadIdentity fixtures.sysDescr)))
     = Raise ValueError
  /\ outcome (@Value_.__float__ collaborators
                (Value_.__init__ (PayloadIdentity fixtures.sysDescr)))
     = Raise ValueError
  /\ Value_.__bool__ (Value_.__init__ (PayloadIdentity fixtures.sysDescr)) = true.
Proof.
  split; [reflexivity|].
  apply (proj2 (@identifier_coercions collaborators)
           (PayloadIdentity fixtures.sysDescr)).
  reflexivity.
Defined.

Lemma float_decodes_opaque_only_witness :
  Value_.is_opaque (Value_.__init__ (PayloadAsn1 opaque42)) = true
  /\ asn1_bytes opaque42 = Ok [x02; x01; x2a]
  /\ calls (@Value_.__float__ collaborators (Value_.__init__ (PayloadAsn1 opaque42)))
     = [Call_pyasn1_decode [x02; x01; x2a]]
  /\ outcome (@Value_.__float__ collaborators (Value_.__init__ (PayloadAsn1 opaque42)))
     = Ok (ber.float_of_int 42).
Proof.
  split; [reflexivity|]. split; [reflexivity|].
  apply (proj1 (@float_decodes_opaque_only collaborators
                  (Value_.__init__ (PayloadAsn1 opaque42)) opaque42 eq_refl)
           eq_refl [x02; x01; x2a] eq_refl).
Defined.

Lemma sentinel_bool_and_str_witness :
  isSameTypeWith noSuchInstance noSuchInstance = true
  /\ Value_.__bool__ (Value_.__init__ (PayloadAsn1 noSuchInstance)) = false
  /\ @Value_.__str__ collaborators (Value_.__init__ (PayloadAsn1 noSuchInstance))
     = ([], Ok ("NoSuchInstance", Value_.__init__ (PayloadAsn1 noSuchInstance))).
Proof.
  split; [reflexivity|].
  apply (proj1 (@sentinel_bool_and_str collaborators
                  (Value_.__init__ (PayloadAsn1 noSuchInstance))
                  noSuchInstance eq_refl)).
  reflexivity.
Defined.

(** The second call on the same [OID] goes through the parser again. *)
Lemma resolve_as_tuple_parses_every_time_witness :
  outcome (@OID_.resolve_as_tuple collaborators (OID_.__init__ (RawStr "1.3.6.1")))
  = Ok ([1; 3; 6; 1], {| raw := RawStr "1.3.6.1"; _parts := Some [1; 3; 6; 1] |})
  /\ @OID_.resolve_as_tuple collaborators
       {| raw := RawStr "1.3.6.1"; _parts := Some [1; 3; 6; 1] |}
     = ([Call_parse_as_oid_tuple (RawStr "1.3.6.1")],
        Ok ([1; 3; 6; 1], {| raw := RawStr "1.3.6.1"; _parts := Some [1; 3; 6; 1] |})).
Proof.
  split; [reflexivity|].
  apply (proj2 (@resolve_as_tuple_parses_every_time collaborators
                  (OID_.__init__ (RawStr "1.3.6.1")))
           [1; 3; 6; 1]
           {| raw := RawStr "1.3.6.1"; _parts := Some [1; 3; 6; 1] |}
           eq_refl).
Defined.

(** C2 as stated fails: the [OID] of ["1.3.6.1"] is parsed again on the
    second call. *)
Lemma second_call_parses_again :
  ~ @resolves_from_cache collaborators (OID_.__init__ (RawStr "1.3.6.1")).
Proof.
  intros Hcache.
  specialize (Hcache [1; 3; 6; 1]
                {| raw := RawStr "1.3.6.1"; _parts := Some [1; 3; 6; 1] |}
                eq_refl).
  discriminate Hcache.
Qed.

(** An [OID] of a dotted string equals the one of the same numbers. *)
Lemma eq_iff_resolved_tuples_equal_witness :
  outcome (@OID_.resolve_as_tuple collaborators (OID_.__init__ (RawStr "1.3.6.1")))
  = Ok ([1; 3; 6; 1], {| raw := RawStr "1.3.6.1"; _parts := Some [1; 3; 6; 1] |})
  /\ outcome (@OID_.resolve_as_tuple collaborators (OID_.__init__ (RawSeq [1; 3; 6; 1])))
     = Ok ([1; 3; 6; 1], {| raw := RawSeq [1; 3; 6; 1]; _parts := Some [1; 3; 6; 1] |})
  /\ exists r : bool,
      outcome (@OID_.__eq__ collaborators (OID_.__init__ (RawStr "1.3.6.1"))
                 (AnyOID (OID_.__init__ (RawSeq [1; 3; 6; 1]))))
      = Ok (r, {| raw := RawStr "1.3.6.1"; _parts := Some [1; 3; 6; 1] |},
            AnyOID {| raw := RawSeq [1; 3; 6; 1]; _parts := Some [1; 3; 6; 1] |})
      /\ (r = true <-> [1; 3; 6; 1] = [1; 3; 6; 1]).
Proof.
  split; [reflexivity|]. split; [reflexivity|].
  apply (@eq_iff_resolved_tuples_equal collaborators
           (OID_.__init__ (RawStr "1.3.6.1"))
           (OID_.__init__ (RawSeq [1; 3; 6; 1]))); reflexivity.
Defined.

Lemma get_mib_symbol_needs_identity_witness :
  (forall h : ObjectIdentity, RawSeq [1; 3; 6; 1] <> RawIdentity h)
  /\ @OID_.get_mib_symbol (OID_.__init__ (RawSeq [1; 3; 6; 1]))
     = ([], Raise NotImplementedError).
Proof.
  assert (Hraw : forall h : ObjectIdentity, RawSeq [1; 3; 6; 1] <> RawIdentity h)
    by (intros h; discriminate).
  split; [exact Hraw|].
  apply (proj1 (get_mib_symbol_needs_identity (OID_.__init__ (RawSeq [1; 3; 6; 1])))).
  exact Hraw.
Defined.

Lemma maybe_resolve_as_object_type_cases_witness :
  raw (OID_.__init__ (RawObjectType (ObjectType_new fixtures.sysDescr)))
  = RawObjectType (ObjectType_new fixtures.sysDescr)
  /\ @OID_.maybe_resolve_as_object_type collaborators
       (OID_.__init__ (RawObjectType (ObjectType_new fixtures.sysDescr)))
     = ([], Ok (ObjectType_new fixtures.sysDescr,
                OID_.__init__ (RawObjectType (ObjectType_new fixtures.sysDescr)))).
Proof.
  split; [reflexivity|].
  apply (proj1 (@maybe_resolve_as_object_type_cases collaborators
                  (OID_.__init__ (RawObjectType (ObjectType_new fixtures.sysDescr))))).
  reflexivity.
Defined.

Lemma str_round_trip_witness :
  utils.parse_as_oid_tuple (RawStr "1.3.6.1.2.1.1.3.0")
  = Ok [1; 3; 6; 1; 2; 1; 1; 3; 0]
  /\ outcome (@OID_.__str__ collaborators (OID_.__init__ (RawStr "1.3.6.1.2.1.1.3.0")))
     = Ok ("1.3.6.1.2.1.1.3.0",
           {| raw := RawStr "1.3.6.1.2.1.1.3.0";
              _parts := Some [1; 3; 6; 1; 2; 1; 1; 3; 0] |}).
Proof.
  split; [reflexivity|].
  apply (str_round_trip "1.3.6.1.2.1.1.3.0" [1; 3; 6; 1; 2; 1; 1; 3; 0]).
  reflexivity.
Defined.

(** * Further properties *)

Section Further.
Context `{Collaborators}.

(** ** What the methods of [OID] do, in one equation each *)

Lemma str_unfold (self : OID) :
  OID_.__str__ self
  = ([Call_parse_as_oid_tuple (raw self)],
     match parse_as_oid_tuple (raw self) with
     | Ok parts => Ok (format_as_oid_string parts, resolved self parts)
     | Raise e => Raise e
     end).
Proof.
  unfold OID_.__str__. rewrite resolve_as_tuple_unfold.
  destruct (parse_as_oid_tuple (raw self)); reflexivity.
Qed.

Lemma eq_unfold (a b : OID) :
  OID_.__eq__ a (AnyOID b)
  = match parse_as_oid_tuple (raw a) with
    | Ok l =>
        ([Call_parse_as_oid_tuple (raw a); Call_parse_as_oid_tuple (raw b)],
         match parse_as_oid_tuple (raw b) with
         | Ok r => Ok (bool_decide (l = r), resolved a l, AnyOID (resolved b r))
         | Raise e => Raise e
         end)
    | Raise e => ([Call_parse_as_oid_tuple (raw a)], Raise e)
    end.
Proof.
  unfold OID_.__eq__. rewrite !resolve_as_tuple_unfold.
  destruct (parse_as_oid_tuple (raw a)); simpl; [|reflexivity].
  destruct (parse_as_oid_tuple (raw b)); reflexivity.
Qed.

Lemma maybe_resolve_ok (self self' : OID) (t : ObjectType) :
  outcome (OID_.maybe_resolve_as_object_type self) = Ok (t, self') ->
  self' = self
  \/ exists parts : list Z,
      parse_as_oid_tuple (raw self) = Ok parts /\ self' = resolved self parts.
Proof.
  unfold OID_.maybe_resolve_as_object_type.
  assert (Hresolve :
            outcome (let* (parts, self) := OID_.resolve_as_tuple self in
                     ret (ObjectType_new (ObjectIdentity_new parts), self))
            = Ok (t, self') ->
            exists parts : list Z,
              parse_as_oid_tuple (raw self) = Ok parts
              /\ self' = resolved self parts).
  { rewrite resolve_as_tuple_unfold.
    destruct (parse_as_oid_tuple (raw self)) as [p|e]; simpl; [|discriminate].
    intros [= _ <-]. exists p. split; reflexivity. }
  destruct (raw self) as [xs|s|v|h|ty];
    try (intros E; right; exact (Hresolve E));
    intros [= _ <-]; left; reflexivity.
Qed.

(** ** The state of an [OID] *)

(** X1: no method of [OID] changes [raw]: the [OID]s that
    [resolve_as_tuple], [maybe_resolve_as_object_type], [__str__] and
    [__eq__] leave behind have the [raw] they were built with. *)
Theorem raw_is_never_modified (self : OID) :
  (forall (parts : list Z) (self' : OID),
      outcome (OID_.resolve_as_tuple self) = Ok (parts, self') ->
      raw self' = raw self)
  /\ (forall (t : ObjectType) (self' : OID),
        outcome (OID_.maybe_resolve_as_object_type self) = Ok (t, self') ->
        raw self' = raw self)
  /\ (forall (s : string) (self' : OID),
        outcome (OID_.__str__ self) = Ok (s, self') -> raw self' = raw self)
  /\ (forall (other other' : PyAny) (r : bool) (self' : OID),
        outcome (OID_.__eq__ self other) = Ok (r, self', other') ->
        raw self' = raw self /\ same_raw other other').
Proof.
  split; [|split; [|split]].
  - intros parts self' E. apply resolve_as_tuple_ok in E as [_ ->]. reflexivity.
  - intros t self' E.
    apply maybe_resolve_ok in E as [->|(parts & _ & ->)]; reflexivity.
  - intros s self'. rewrite str_unfold. simpl.
    destruct (parse_as_oid_tuple (raw self)); [|discriminate].
    intros [= _ <-]. reflexivity.
  - intros [o|] other' r self'.
    + rewrite eq_unfold.
      destruct (parse_as_oid_tuple (raw self)); simpl; [|discriminate].
      destruct (parse_as_oid_tuple (raw o)); [|discriminate].
      intros [= _ <- <-]. split; reflexivity.
    + simpl. intros [= _ <- <-]. split; [reflexivity|exact I].
Qed.

(** X2: the cache is consistent all along.  A new [OID] has no [_parts];
    [resolve_as_tuple], [__str__] and [__eq__] leave [_parts] set to what the
    parser made of [raw] (and [__str__] returns the string form of that
    tuple); [maybe_resolve_as_object_type] keeps a consistent cache
    consistent. *)
Theorem parts_stay_consistent :
  (forall value : Raw,
      _parts (OID_.__init__ value) = None
      /\ parts_consistent (OID_.__init__ value))
  /\ (forall (self self' : OID) (parts : list Z),
        outcome (OID_.resolve_as_tuple self) = Ok (parts, self') ->
        _parts self' = Some parts /\ parts_consistent self')
  /\ (forall (self self' : OID) (s : string),
        outcome (OID_.__str__ self) = Ok (s, self') ->
        parts_consistent self'
        /\ exists parts : list Z,
            _parts self' = Some parts /\ s = format_as_oid_string parts)
  /\ (forall (self self' o o' : OID) (r : bool),
        outcome (OID_.__eq__ self (AnyOID o)) = Ok (r, self', AnyOID o') ->
        parts_consistent self' /\ parts_consistent o'
        /\ exists l p : list Z,
            _parts self' = Some l /\ _parts o' = Some p
            /\ r = bool_decide (l = p))
  /\ (forall (self self' : OID) (t : ObjectType),
        parts_consistent self ->
        outcome (OID_.maybe_resolve_as_object_type self) = Ok (t, self') ->
        parts_consistent self').
Proof.
  assert (Hres : forall (self : OID) (parts : list Z),
             parse_as_oid_tuple (raw self) = Ok parts ->
             parts_consistent (resolved self parts)).
  { intros self parts Hp q [= <-]. exact Hp. }
  split; [|split; [|split; [|split]]].
  - intros value. split; [reflexivity|]. intros parts. discriminate.
  - intros self self' parts E. apply resolve_as_tuple_ok in E as [Hp ->].
    split; [reflexivity|]. apply Hres, Hp.
  - intros self self' s. rewrite str_unfold. simpl.
    destruct (parse_as_oid_tuple (raw self)) as [p|e] eqn:Hp; [|discriminate].
    intros [= <- <-]. split; [apply Hres, Hp|].
    exists p. split; reflexivity.
  - intros self self' o o' r. rewrite eq_unfold.
    destruct (parse_as_oid_tuple (raw self)) as [l|e] eqn:Hl; simpl;
      [|discriminate].
    destruct (parse_as_oid_tuple (raw o)) as [p|e] eqn:Hp; [|discriminate].
    intros [= <- <- <-].
    split; [apply Hres, Hl|]. split; [apply Hres, Hp|].
    exists l, p. repeat split; reflexivity.
  - intros self self' t Hc E.
    apply maybe_resolve_ok in E as [->|(parts & Hp & ->)];
      [exact Hc|apply Hres, Hp].
Qed.

(** ** Equality *)

(** X3: on the [OID]s that resolve, [==] is an equivalence: every such
    [OID] equals itself, the answer does not depend on the side an [OID] is
    on, and two [OID]s equal to a third are equal. *)
Theorem eq_is_an_equivalence (a b c : OID) :
  (forall (ta : list Z) (a' : OID),
      outcome (OID_.resolve_as_tuple a) = Ok (ta, a') ->
      outcome (OID_.__eq__ a (AnyOID a)) = Ok (true, a', AnyOID a'))
  /\ (forall (r : bool) (a' b' : OID),
        outcome (OID_.__eq__ a (AnyOID b)) = Ok (r, a', AnyOID b') ->
        outcome (OID_.__eq__ b (AnyOID a)) = Ok (r, b', AnyOID a'))
  /\ (forall a' b' b'' c' : OID,
        outcome (OID_.__eq__ a (AnyOID b)) = Ok (true, a', AnyOID b') ->
        outcome (OID_.__eq__ b (AnyOID c)) = Ok (true, b'', AnyOID c') ->
        outcome (OID_.__eq__ a (AnyOID c)) = Ok (true, a', AnyOID c')).
Proof.
  rewrite !eq_unfold. split; [|split].
  - intros ta a' E. apply resolve_as_tuple_ok in E as [Hp ->].
    rewrite Hp. simpl. rewrite bool_decide_eq_true_2; reflexivity.
  - intros r a' b'.
    destruct (parse_as_oid_tuple (raw a)) as [l|e]; simpl; [|discriminate].
    destruct (parse_as_oid_tuple (raw b)) as [p|e]; simpl; [|discriminate].
    intros [= <- <- <-]. do 3 f_equal.
    apply bool_decide_ext. split; congruence.
  - intros a' b' b'' c'.
    destruct (parse_as_oid_tuple (raw a)) as [l|e]; simpl; [|discriminate].
    destruct (parse_as_oid_tuple (raw b)) as [p|e]; simpl; [|discriminate].
    destruct (parse_as_oid_tuple (raw c)) as [q|e]; simpl; [|discriminate].
    intros [= Hlp <- _] [= Hpq _ <-].
    apply bool_decide_eq_true in Hlp, Hpq.
    rewrite bool_decide_eq_true_2 by congruence. reflexivity.
Qed.

(** X4: what [==] evaluates, and in which order.  Against something that
    is not an [OID] the answer is [False] and nothing is parsed, so that
    the comparison cannot raise; against an [OID], the left side is
    resolved first, and when that raises the right side is not parsed;
    otherwise both are parsed, once each, and what the right side raises is
    raised. *)
Theorem eq_evaluation_order (self o : OID) :
  OID_.__eq__ self AnyOther = ([], Ok (false, self, AnyOther))
  /\ (forall e : exn,
        parse_as_oid_tuple (raw self) = Raise e ->
        OID_.__eq__ self (AnyOID o)
        = ([Call_parse_as_oid_tuple (raw self)], Raise e))
  /\ (forall l : list Z,
        parse_as_oid_tuple (raw self) = Ok l ->
        calls (OID_.__eq__ self (AnyOID o))
        = [Call_parse_as_oid_tuple (raw self); Call_parse_as_oid_tuple (raw o)]
        /\ forall e : exn,
            parse_as_oid_tuple (raw o) = Raise e ->
            outcome (OID_.__eq__ self (AnyOID o)) = Raise e).
Proof.
  split; [reflexivity|]. rewrite eq_unfold. split.
  - intros e ->. reflexivity.
  - intros l ->. split; [reflexivity|]. intros e ->. reflexivity.
Qed.

(** X5: when [==] returns, both [OID]s have a string form, and [OID]s
    that compare equal have the same string form. *)
Theorem equal_oids_have_the_same_str (a b a' b' : OID) (r : bool) :
  outcome (OID_.__eq__ a (AnyOID b)) = Ok (r, a', AnyOID b') ->
  exists sa sb : string,
    outcome (OID_.__str__ a) = Ok (sa, a')
    /\ outcome (OID_.__str__ b) = Ok (sb, b')
    /\ (r = true -> sa = sb).
Proof.
  rewrite eq_unfold, !str_unfold.
  destruct (parse_as_oid_tuple (raw a)) as [l|e]; simpl; [|discriminate].
  destruct (parse_as_oid_tuple (raw b)) as [p|e]; simpl; [|discriminate].
  intros [= <- <- <-].
  exists (format_as_oid_string l), (format_as_oid_string p).
  split; [reflexivity|]. split; [reflexivity|].
  intros Hr. apply bool_decide_eq_true in Hr. rewrite Hr. reflexivity.
Qed.

(** ** Failures of the resolution *)

(** X6: [resolve_as_tuple] and [__str__] raise exactly what the parser
    raises on [raw], and return exactly when the parser returns: the
    attribute [_parts] is never read before it is set. *)
Theorem resolution_fails_as_the_parser (self : OID) (e : exn) :
  (outcome (OID_.resolve_as_tuple self) = Raise e
   <-> parse_as_oid_tuple (raw self) = Raise e)
  /\ (outcome (OID_.__str__ self) = Raise e
      <-> parse_as_oid_tuple (raw self) = Raise e)
  /\ ((exists r, outcome (OID_.resolve_as_tuple self) = Ok r)
      <-> exists parts, parse_as_oid_tuple (raw self) = Ok parts).
Proof.
  rewrite str_unfold, resolve_as_tuple_unfold. simpl.
  destruct (parse_as_oid_tuple (raw self)) as [p|e'].
  - split; [|split]; split; try discriminate.
    + intros _. exists p. reflexivity.
    + intros _. eexists. reflexivity.
  - split; [|split]; split; try (intros [= ->]; reflexivity).
    + intros [r Hr]. discriminate.
    + intros [parts Hp]. discriminate.
Qed.

(** ** MIB symbols *)

(** X7: for an [OID] built from a symbolic-identity handle,
    [get_mib_symbol] looks the symbol up once and parses nothing; it
    returns the name of the symbol with the string of each index, in order,
    and drops the name of the MIB; it raises what the lookup raises. *)
Theorem get_mib_symbol_of_identity (self : OID) (h : ObjectIdentity) :
  raw self = RawIdentity h ->
  calls (OID_.get_mib_symbol self) = [Call_getMibSymbol h]
  /\ (forall (mib metric : string) (indexes : list Asn1),
        identity_getMibSymbol h = Ok (mib, metric, indexes) ->
        outcome (OID_.get_mib_symbol self) = Ok (metric, map asn1_str indexes))
  /\ (forall e : exn,
        identity_getMibSymbol h = Raise e ->
        outcome (OID_.get_mib_symbol self) = Raise e).
Proof.
  intros Hraw. unfold OID_.get_mib_symbol. rewrite Hraw. unfold call, bind.
  destruct (identity_getMibSymbol h) as [[[mib metric] indexes]|e]; simpl.
  - split; [reflexivity|]. split; [|discriminate].
    intros mib' metric' indexes' [= _ <- <-]. reflexivity.
  - split; [reflexivity|]. split; [discriminate|].
    intros e' [= <-]. reflexivity.
Qed.

(** ** Strings and numbers of values *)

Lemma str_of_held (val : Value) (v : Asn1) :
  _value val = InnerAsn1 v ->
  exists s : string, Value_.__str__ val = ([], Ok (s, val)).
Proof.
  intros Hv. unfold Value_.__str__. rewrite Hv.
  destruct (isSameTypeWith noSuchInstance v); [eexists; reflexivity|].
  destruct (isSameTypeWith noSuchObject v); [eexists; reflexivity|].
  destruct (isSameTypeWith endOfMibView v); eexists; reflexivity.
Qed.

(** X8: the string of a [Value] built from an identifier payload is the
    string form of the [OID] of that payload: the payload is parsed once,
    what the parser raises is raised, and the [Value] is true even when its
    string cannot be made. *)
Theorem identifier_value_str (p : Payload) :
  identifier_typed p = true ->
  calls (Value_.__str__ (Value_.__init__ p))
  = [Call_parse_as_oid_tuple (payload_raw p)]
  /\ (forall parts : list Z,
        parse_as_oid_tuple (payload_raw p) = Ok parts ->
        outcome (Value_.__str__ (Value_.__init__ p))
        = Ok (format_as_oid_string parts,
              {| _value := InnerOID (resolved (OID_.__init__ (payload_raw p)) parts) |}))
  /\ (forall e : exn,
        parse_as_oid_tuple (payload_raw p) = Raise e ->
        outcome (Value_.__str__ (Value_.__init__ p)) = Raise e
        /\ Value_.__bool__ (Value_.__init__ p) = true).
Proof.
  intros Hp. pose proof (init_identifier p Hp) as Hv.
  unfold Value_.__str__, Value_.__bool__. rewrite Hv, str_unfold. simpl.
  destruct (parse_as_oid_tuple (payload_raw p)) as [q|e]; simpl.
  - split; [reflexivity|]. split; [|discriminate].
    intros parts [= <-]. reflexivity.
  - split; [reflexivity|]. split; [discriminate|].
    intros e' [= <-]. split; reflexivity.
Qed.

(** X9: a [Value] that is false has a string.  It holds a PyASN1 value of
    the type of [noSuchInstance] or of [noSuchObject], and its string is the
    literal [NoSuchInstance], resp. [NoSuchObject], made without any call;
    the [Value] is left as it is. *)
Theorem false_value_has_a_sentinel_str (val : Value) :
  Value_.__bool__ val = false ->
  exists v : Asn1,
    _value val = InnerAsn1 v
    /\ ((isSameTypeWith noSuchInstance v = true
         /\ Value_.__str__ val = ([], Ok ("NoSuchInstance", val)))
        \/ (isSameTypeWith noSuchInstance v = false
            /\ isSameTypeWith noSuchObject v = true
            /\ Value_.__str__ val = ([], Ok ("NoSuchObject", val)))).
Proof.
  unfold Value_.__bool__, Value_.__str__.
  destruct (_value val) as [o|v]; [discriminate|].
  intros Hb. exists v. split; [reflexivity|].
  destruct (isSameTypeWith noSuchInstance v).
  { left. split; reflexivity. }
  destruct (isSameTypeWith noSuchObject v); [|discriminate].
  right. repeat split; reflexivity.
Qed.

(** X10: [int()] of a [Value] built from a payload that is not an
    identifier is [int()] of the payload, value or exception, and the
    decoder is not called.  This is so for a payload of class [Opaque] too,
    for which [float()] does call the decoder. *)
Theorem int_is_the_int_of_the_payload (v : Asn1) :
  isinstance v "ObjectIdentifier" = false ->
  Value_.__int__ (Value_.__init__ (PayloadAsn1 v)) = ([], asn1_int v)
  /\ (asn1_class v = "Opaque" ->
      forall octets : list byte,
        asn1_bytes v = Ok octets ->
        calls (Value_.__float__ (Value_.__init__ (PayloadAsn1 v)))
        = [Call_pyasn1_decode octets]).
Proof.
  intros Hi. pose proof (init_asn1 v Hi) as Hv.
  unfold Value_.__int__, Value_.__float__, Value_.is_opaque.
  rewrite Hv. simpl. split; [reflexivity|].
  intros -> octets ->. simpl. unfold call, bind.
  destruct (pyasn1_decode octets) as [[decoded rest]|e]; reflexivity.
Qed.

(** X11: [float()] of an opaque value has no fallback: it returns a
    number exactly when [bytes()] of the value returns, the decoder accepts
    these octets and [float()] of the decoded value returns that number
    (octets left over by the decoder are ignored); when [bytes()] raises,
    this is raised and the decoder is not called. *)
Theorem opaque_float_has_no_fallback (val : Value) (v : Asn1) :
  _value val = InnerAsn1 v ->
  Value_.is_opaque val = true ->
  (forall f : spec_float,
      outcome (Value_.__float__ val) = Ok f
      <-> exists (octets : list byte) (decoded : Asn1) (rest : list byte),
          asn1_bytes v = Ok octets
          /\ pyasn1_decode octets = Ok (decoded, rest)
          /\ asn1_float decoded = Ok f)
  /\ (forall e : exn,
        asn1_bytes v = Raise e -> Value_.__float__ val = ([], Raise e)).
Proof.
  intros Hv Ho. unfold Value_.__float__. rewrite Hv, Ho. split.
  - intros f. destruct (asn1_bytes v) as [octets|e]; simpl.
    + unfold call, bind.
      destruct (pyasn1_decode octets) as [[decoded rest]|e] eqn:Hd; simpl.
      * split.
        -- intros Hf. exists octets, decoded, rest. auto.
        -- intros (octets' & decoded' & rest' & [= <-] & Hd' & Hf).
           rewrite Hd in Hd'. injection Hd' as <- <-. exact Hf.
      * split; [discriminate|].
        intros (octets' & decoded' & rest' & [= <-] & Hd' & _).
        rewrite Hd in Hd'. discriminate.
    + split; [discriminate|].
      intros (octets & decoded & rest & Hb & _). discriminate.
  - intros e ->. reflexivity.
Qed.

(** ** Variables *)

(** X12: the string of a [Variable] is made of the string of its oid
    and the string of its value, in this order: when the oid does not
    resolve, the exception of the parser is raised and the value is not
    looked at; when it resolves and the value holds a PyASN1 value, the
    string is [(oid, value)] after one call to the parser, and the variable
    is left with its oid resolved. *)
Theorem variable_str (self : SnmpVariable) :
  (forall e : exn,
      parse_as_oid_tuple (raw (oid self)) = Raise e ->
      Variable_.__str__ self
      = ([Call_parse_as_oid_tuple (raw (oid self))], Raise e))
  /\ (forall (parts : list Z) (v : Asn1),
        parse_as_oid_tuple (raw (oid self)) = Ok parts ->
        _value (value self) = InnerAsn1 v ->
        exists s : string,
          Value_.__str__ (value self) = ([], Ok (s, value self))
          /\ Variable_.__str__ self
             = ([Call_parse_as_oid_tuple (raw (oid self))],
                Ok ("(" ++ format_as_oid_string parts ++ ", " ++ s ++ ")",
                    {| oid := resolved (oid self) parts;
                       value := value self |}))).
Proof.
  unfold Variable_.__str__. rewrite str_unfold. split.
  - intros e ->. reflexivity.
  - intros parts v -> Hv. destruct (str_of_held _ _ Hv) as [s Hs].
    exists s. split; [exact Hs|]. unfold bind at 1. rewrite Hs. reflexivity.
Qed.

End Further.

(** * Worked examples of the further properties *)

Lemma raw_is_never_modified_witness :
  outcome (@OID_.__str__ collaborators (OID_.__init__ (RawStr "1.3.6.1")))
  = Ok ("1.3.6.1", {| raw := RawStr "1.3.6.1"; _parts := Some [1; 3; 6; 1] |})
  /\ raw {| raw := RawStr "1.3.6.1"; _parts := Some [1; 3; 6; 1] |}
     = raw (OID_.__init__ (RawStr "1.3.6.1")).
Proof.
  split; [reflexivity|].
  apply (proj1 (proj2 (proj2 (@raw_is_never_modified collaborators
                                (OID_.__init__ (RawStr "1.3.6.1")))))
           "1.3.6.1").
  reflexivity.
Defined.

(** A cache that is set but stale is put right by [resolve_as_tuple]; a
    cache that is set and consistent stays so through
    [maybe_resolve_as_object_type], whether it resolves again or returns a
    typed object of the handle. *)
Lemma parts_stay_consistent_witness :
  (outcome (@OID_.resolve_as_tuple collaborators
              {| raw := RawStr "1.3.6.1"; _parts := Some [9] |})
   = Ok ([1; 3; 6; 1], {| raw := RawStr "1.3.6.1"; _parts := Some [1; 3; 6; 1] |})
   /\ _parts {| raw := RawStr "1.3.6.1"; _parts := Some [1; 3; 6; 1] |}
      = Some [1; 3; 6; 1]
   /\ @parts_consistent collaborators
        {| raw := RawStr "1.3.6.1"; _parts := Some [1; 3; 6; 1] |})
  /\ (@parts_consistent collaborators
        {| raw := RawSeq [1; 3; 6; 1]; _parts := Some [1; 3; 6; 1] |}
      /\ outcome (@OID_.maybe_resolve_as_object_type collaborators
                    {| raw := RawSeq [1; 3; 6; 1]; _parts := Some [1; 3; 6; 1] |})
         = Ok (ObjectType_new (ObjectIdentity_new [1; 3; 6; 1]),
               {| raw := RawSeq [1; 3; 6; 1]; _parts := Some [1; 3; 6; 1] |})
      /\ @parts_consistent collaborators
           {| raw := RawSeq [1; 3; 6; 1]; _parts := Some [1; 3; 6; 1] |})
  /\ (@parts_consistent collaborators
        {| raw := RawIdentity fixtures.sysDescr;
           _parts := Some [1; 3; 6; 1; 2; 1; 1; 1; 0] |}
      /\ outcome (@OID_.maybe_resolve_as_object_type collaborators
                    {| raw := RawIdentity fixtures.sysDescr;
                       _parts := Some [1; 3; 6; 1; 2; 1; 1; 1; 0] |})
         = Ok (ObjectType_new fixtures.sysDescr,
               {| raw := RawIdentity fixtures.sysDescr;
                  _parts := Some [1; 3; 6; 1; 2; 1; 1; 1; 0] |})
      /\ @parts_consistent collaborators
           {| raw := RawIdentity fixtures.sysDescr;
              _parts := Some [1; 3; 6; 1; 2; 1; 1; 1; 0] |}).
Proof.
  split; [|split].
  - split; [reflexivity|].
    apply (proj1 (proj2 (@parts_stay_consistent collaborators))
             {| raw := RawStr "1.3.6.1"; _parts := Some [9] |}).
    reflexivity.
  - assert (Hc : @parts_consistent collaborators
                   {| raw := RawSeq [1; 3; 6; 1]; _parts := Some [1; 3; 6; 1] |})
      by (intros parts [= <-]; reflexivity).
    split; [exact Hc|]. split; [reflexivity|].
    apply (proj2 (proj2 (proj2 (proj2 (@parts_stay_consistent collaborators))))
             {| raw := RawSeq [1; 3; 6; 1]; _parts := Some [1; 3; 6; 1] |}
             {| raw := RawSeq [1; 3; 6; 1]; _parts := Some [1; 3; 6; 1] |}
             (ObjectType_new (ObjectIdentity_new [1; 3; 6; 1])) Hc).
    reflexivity.
  - assert (Hc : @parts_consistent collaborators
                   {| raw := RawIdentity fixtures.sysDescr;
                      _parts := Some [1; 3; 6; 1; 2; 1; 1; 1; 0] |})
      by (intros parts [= <-]; reflexivity).
    split; [exact Hc|]. split; [reflexivity|].
    apply (proj2 (proj2 (proj2 (proj2 (@parts_stay_consistent collaborators))))
             {| raw := RawIdentity fixtures.sysDescr;
                _parts := Some [1; 3; 6; 1; 2; 1; 1; 1; 0] |}
             {| raw := RawIdentity fixtures.sysDescr;
                _parts := Some [1; 3; 6; 1; 2; 1; 1; 1; 0] |}
             (ObjectType_new fixtures.sysDescr) Hc).
    reflexivity.
Defined.

Lemma eq_is_an_equivalence_witness :
  outcome (@OID_.__eq__ collaborators (OID_.__init__ (RawStr "1.3.6.1"))
             (AnyOID (OID_.__init__ (RawSeq [1; 3; 6; 1]))))
  = Ok (true, {| raw := RawStr "1.3.6.1"; _parts := Some [1; 3; 6; 1] |},
        AnyOID {| raw := RawSeq [1; 3; 6; 1]; _parts := Some [1; 3; 6; 1] |})
  /\ outcome (@OID_.__eq__ collaborators (OID_.__init__ (RawSeq [1; 3; 6; 1]))
                (AnyOID (OID_.__init__ (RawStr "1.3.6.1"))))
     = Ok (true, {| raw := RawSeq [1; 3; 6; 1]; _parts := Some [1; 3; 6; 1] |},
           AnyOID {| raw := RawStr "1.3.6.1"; _parts := Some [1; 3; 6; 1] |}).
Proof.
  split; [reflexivity|].
  apply (proj1 (proj2 (@eq_is_an_equivalence collaborators
                         (OID_.__init__ (RawStr "1.3.6.1"))
                         (OID_.__init__ (RawSeq [1; 3; 6; 1]))
                         (OID_.__init__ (RawSeq [1; 3; 6; 1]))))).
  reflexivity.
Defined.

(** A malformed left side: the right side is not parsed. *)
Lemma eq_evaluation_order_witness :
  utils.parse_as_oid_tuple (RawStr "1.x") = Raise CouldNotDecodeOID
  /\ @OID_.__eq__ collaborators (OID_.__init__ (RawStr "1.x"))
       (AnyOID (OID_.__init__ (RawSeq [1; 3])))
     = ([Call_parse_as_oid_tuple (RawStr "1.x")], Raise CouldNotDecodeOID).
Proof.
  split; [reflexivity|].
  apply (proj1 (proj2 (@eq_evaluation_order collaborators
                         (OID_.__init__ (RawStr "1.x"))
                         (OID_.__init__ (RawSeq [1; 3]))))).
  reflexivity.
Defined.

Lemma equal_oids_have_the_same_str_witness :
  outcome (@OID_.__eq__ collaborators (OID_.__init__ (RawStr "1.3.6.1"))
             (AnyOID (OID_.__init__ (RawSeq [1; 3; 6; 1]))))
  = Ok (true, {| raw := RawStr "1.3.6.1"; _parts := Some [1; 3; 6; 1] |},
        AnyOID {| raw := RawSeq [1; 3; 6; 1]; _parts := Some [1; 3; 6; 1] |})
  /\ exists sa sb : string,
      outcome (@OID_.__str__ collaborators (OID_.__init__ (RawStr "1.3.6.1")))
      = Ok (sa, {| raw := RawStr "1.3.6.1"; _parts := Some [1; 3; 6; 1] |})
      /\ outcome (@OID_.__str__ collaborators (OID_.__init__ (RawSeq [1; 3; 6; 1])))
         = Ok (sb, {| raw := RawSeq [1; 3; 6; 1]; _parts := Some [1; 3; 6; 1] |})
      /\ (true = true -> sa = sb).
Proof.
  split; [reflexivity|].
  apply (@equal_oids_have_the_same_str collaborators
           (OID_.__init__ (RawStr "1.3.6.1"))
           (OID_.__init__ (RawSeq [1; 3; 6; 1]))).
  reflexivity.
Defined.

(** The empty string does not resolve. *)
Lemma resolution_fails_as_the_parser_witness :
  utils.parse_as_oid_tuple (RawStr "") = Raise CouldNotDecodeOID
  /\ outcome (@OID_.resolve_as_tuple collaborators (OID_.__init__ (RawStr "")))
     = Raise CouldNotDecodeOID.
Proof.
  split; [reflexivity|].
  apply (proj1 (@resolution_fails_as_the_parser collaborators
                  (OID_.__init__ (RawStr "")) CouldNotDecodeOID)).
  reflexivity.
Defined.

Lemma get_mib_symbol_of_identity_witness :
  raw (OID_.__init__ (RawIdentity fixtures.sysDescr)) = RawIdentity fixtures.sysDescr
  /\ identity_getMibSymbol fixtures.sysDescr
     = Ok ("SNMPv2-MIB", "sysDescr", [ber.Integer 0])
  /\ outcome (OID_.get_mib_symbol (OID_.__init__ (RawIdentity fixtures.sysDescr)))
     = Ok ("sysDescr", ["0"]).
Proof.
  split; [reflexivity|]. split; [reflexivity|].
  apply (proj1 (proj2 (get_mib_symbol_of_identity
                         (OID_.__init__ (RawIdentity fixtures.sysDescr))
                         fixtures.sysDescr eq_refl))
           "SNMPv2-MIB" "sysDescr" [ber.Integer 0]).
  reflexivity.
Defined.

(** A handle that is not resolved: true, and without a string. *)
Lemma identifier_value_str_witness :
  identifier_typed (PayloadIdentity unresolved) = true
  /\ utils.parse_as_oid_tuple (payload_raw (PayloadIdentity unresolved))
     = Raise CouldNotDecodeOID
  /\ outcome (@Value_.__str__ collaborators (Value_.__init__ (PayloadIdentity unresolved)))
     = Raise CouldNotDecodeOID
  /\ Value_.__bool__ (Value_.__init__ (PayloadIdentity unresolved)) = true.
Proof.
  split; [reflexivity|]. split; [reflexivity|].
  apply (proj2 (proj2 (@identifier_value_str collaborators
                         (PayloadIdentity unresolved) eq_refl))
           CouldNotDecodeOID).
  reflexivity.
Defined.

Lemma false_value_has_a_sentinel_str_witness :
  Value_.__bool__ (Value_.__init__ (PayloadAsn1 noSuchObject)) = false
  /\ exists v : Asn1,
      _value (Value_.__init__ (PayloadAsn1 noSuchObject)) = InnerAsn1 v
      /\ ((isSameTypeWith noSuchInstance v = true
           /\ @Value_.__str__ collaborators (Value_.__init__ (PayloadAsn1 noSuchObject))
              = ([], Ok ("NoSuchInstance", Value_.__init__ (PayloadAsn1 noSuchObject))))
          \/ (isSameTypeWith noSuchInstance v = false
              /\ isSameTypeWith noSuchObject v = true
              /\ @Value_.__str__ collaborators (Value_.__init__ (PayloadAsn1 noSuchObject))
                 = ([], Ok ("NoSuchObject", Value_.__init__ (PayloadAsn1 noSuchObject))))).
Proof.
  split; [reflexivity|].
  apply (@false_value_has_a_sentinel_str collaborators
           (Value_.__init__ (PayloadAsn1 noSuchObject))).
  reflexivity.
Defined.

(** [int()] of an opaque value is not decoded: it raises. *)
Lemma int_is_the_int_of_the_payload_witness :
  isinstance opaque42 "ObjectIdentifier" = false
  /\ @Value_.__int__ (Value_.__init__ (PayloadAsn1 opaque42)) = ([], Raise ValueError)
  /\ calls (@Value_.__float__ collaborators (Value_.__init__ (PayloadAsn1 opaque42)))
     = [Call_pyasn1_decode [x02; x01; x2a]].
Proof.
  split; [reflexivity|]. split.
  - apply (proj1 (@int_is_the_int_of_the_payload collaborators opaque42 eq_refl)).
  - apply (proj2 (@int_is_the_int_of_the_payload collaborators opaque42 eq_refl)
             eq_refl [x02; x01; x2a]).
    reflexivity.
Defined.

Lemma opaque_float_has_no_fallback_witness :
  _value (Value_.__init__ (PayloadAsn1 opaque42)) = InnerAsn1 opaque42
  /\ Value_.is_opaque (Value_.__init__ (PayloadAsn1 opaque42)) = true
  /\ outcome (@Value_.__float__ collaborators (Value_.__init__ (PayloadAsn1 opaque42)))
     = Ok (ber.float_of_int 42)
  /\ exists (octets : list byte) (decoded : Asn1) (rest : list byte),
      asn1_bytes opaque42 = Ok octets
      /\ ber.decode octets = Ok (decoded, rest)
      /\ asn1_float decoded = Ok (ber.float_of_int 42).
Proof.
  split; [reflexivity|]. split; [reflexivity|]. split; [reflexivity|].
  apply (proj1 (proj1 (@opaque_float_has_no_fallback collaborators
                         (Value_.__init__ (PayloadAsn1 opaque42)) opaque42
                         eq_refl eq_refl)
                  (ber.float_of_int 42))).
  reflexivity.
Defined.

Lemma variable_str_witness :
  utils.parse_as_oid_tuple (RawStr "1.3.6.1.2.1.1.3.0") = Ok [1; 3; 6; 1; 2; 1; 1; 3; 0]
  /\ _value (Value_.__init__ (PayloadAsn1 noSuchInstance)) = InnerAsn1 noSuchInstance
  /\ exists s : string,
      @Value_.__str__ collaborators (Value_.__init__ (PayloadAsn1 noSuchInstance))
      = ([], Ok (s, Value_.__init__ (PayloadAsn1 noSuchInstance)))
      /\ @Variable_.__str__ collaborators
           (Variable_.__init__ (OID_.__init__ (RawStr "1.3.6.1.2.1.1.3.0"))
              (Value_.__init__ (PayloadAsn1 noSuchInstance)))
         = ([Call_parse_as_oid_tuple (RawStr "1.3.6.1.2.1.1.3.0")],
            Ok ("(" ++ "1.3.6.1.2.1.1.3.0" ++ ", " ++ s ++ ")",
                {| oid := {| raw := RawStr "1.3.6.1.2.1.1.3.0";
                             _parts := Some [1; 3; 6; 1; 2; 1; 1; 3; 0] |};
                   value := Value_.__init__ (PayloadAsn1 noSuchInstance) |})).
Proof.
  split; [reflexivity|]. split; [reflexivity|].
  apply (proj2 (@variable_str collaborators
                  (Variable_.__init__ (OID_.__init__ (RawStr "1.3.6.1.2.1.1.3.0"))
                     (Value_.__init__ (PayloadAsn1 noSuchInstance))))
           [1; 3; 6; 1; 2; 1; 1; 3; 0] noSuchInstance);
    reflexivity.
Defined.
